(** * A FastAPI calculator: the arithmetic module and its request handler

    The development follows [src/app.py]: the POST handler [calculate]
    dispatches on a selector string to one of four arithmetic functions,
    turns a [ValueError] into a message, and hands a two-field context
    (result, error) to the template layer.  Operands are Python floats,
    that is IEEE-754 binary64 numbers, embedded as Rocq's primitive floats
    whose operations are specified by [SpecFloat]. *)

From Stdlib Require Import ZArith Bool List String Ascii Lia.
From Stdlib Require Import Floats.
Import ListNotations.

Local Open Scope string_scope.

(** ** Python exceptions *)

Module Py.

(** The slice of the built-in exception hierarchy that float arithmetic
    and the handler can meet, left open by [UserDefined] for classes
    declared by a program ([class E(Base): pass]). *)
Inductive exc_class : Type :=
| BaseException
| Exception
| ArithmeticError
| ZeroDivisionError
| OverflowError
| FloatingPointError
| ValueError
| UnicodeError
| TypeError
| UserDefined (name : string) (base : exc_class).

Fixpoint class_eqb (c d : exc_class) : bool :=
  match c, d with
  | BaseException, BaseException => true
  | Exception, Exception => true
  | ArithmeticError, ArithmeticError => true
  | ZeroDivisionError, ZeroDivisionError => true
  | OverflowError, OverflowError => true
  | FloatingPointError, FloatingPointError => true
  | ValueError, ValueError => true
  | UnicodeError, UnicodeError => true
  | TypeError, TypeError => true
  | UserDefined n b, UserDefined n' b' => String.eqb n n' && class_eqb b b'
  | _, _ => false
  end.

(** Method resolution order: the class followed by its bases. *)
Fixpoint mro (c : exc_class) : list exc_class :=
  match c with
  | BaseException => [BaseException]
  | Exception => [Exception; BaseException]
  | ArithmeticError => [ArithmeticError; Exception; BaseException]
  | ZeroDivisionError =>
      [ZeroDivisionError; ArithmeticError; Exception; BaseException]
  | OverflowError =>
      [OverflowError; ArithmeticError; Exception; BaseException]
  | FloatingPointError =>
      [FloatingPointError; ArithmeticError; Exception; BaseException]
  | ValueError => [ValueError; Exception; BaseException]
  | UnicodeError => [UnicodeError; ValueError; Exception; BaseException]
  | TypeError => [TypeError; Exception; BaseException]
  | UserDefined _ b => c :: mro b
  end.

Definition issubclass (c d : exc_class) : bool :=
  existsb (class_eqb d) (mro c).

(** An exception object: its class and what [str(e)] gives. *)
Record exn : Type := mk_exn { exn_class : exc_class; str : string }.

Definition isinstance (e : exn) (c : exc_class) : bool :=
  issubclass (exn_class e) c.

(** What evaluating a call yields: a value, or a raised exception. *)
Inductive outcome (A : Type) : Type :=
| Returns (a : A)
| Raises (e : exn).
Arguments Returns {A} a.
Arguments Raises {A} e.

(** *** Float arithmetic as Python performs it

    [+], [-] and [*] on floats never raise; [/] raises
    [ZeroDivisionError] when the divisor compares equal to zero. *)
Definition float_add (a b : float) : outcome float := Returns (a + b)%float.
Definition float_sub (a b : float) : outcome float := Returns (a - b)%float.
Definition float_mul (a b : float) : outcome float := Returns (a * b)%float.
Definition float_truediv (a b : float) : outcome float :=
  if (b =? 0)%float
  then Raises (mk_exn ZeroDivisionError "float division by zero")
  else Returns (a / b)%float.

(** [x == y] on floats. *)
Definition float_eq (x y : float) : bool := (x =? y)%float.

(** [assert call == x], as the unit tests write it: the call returns and
    its value compares equal to [x]. *)
Definition assert_eq (o : outcome float) (x : float) : bool :=
  match o with
  | Returns r => float_eq r x
  | Raises _ => false
  end.

(** [math.isfinite]. *)
Definition isfinite (x : float) : bool := is_finite x.

(** [s.lower()] on ASCII text. *)
Definition lower_ascii (c : ascii) : ascii :=
  let n := nat_of_ascii c in
  if (65 <=? n)%nat && (n <=? 90)%nat then ascii_of_nat (n + 32) else c.

Fixpoint lower (s : string) : string :=
  match s with
  | EmptyString => EmptyString
  | String c t => String (lower_ascii c) (lower t)
  end.

(** [needle in hay]. *)
Fixpoint contains (needle hay : string) : bool :=
  String.prefix needle hay ||
  match hay with
  | EmptyString => false
  | String _ t => contains needle t
  end.

End Py.
Import Py.

(** ** The arithmetic module *)

Module calculator.

(** Modelled from the spec: [src/calculator.py] is imported by
    [src/app.py] and by the unit tests but is not among the sources;
    section 4.1 gives [add(a, b) -> a + b], always succeeding. *)
Definition add (a b : float) : outcome float := float_add a b.

(** Modelled from the spec: [subtract(a, b) -> a - b], always succeeding
    (section 4.1; [calculator.py] is missing). *)
Definition subtract (a b : float) : outcome float := float_sub a b.

(** Modelled from the spec: [multiply(a, b) -> a * b], always succeeding
    (section 4.1; [calculator.py] is missing). *)
Definition multiply (a b : float) : outcome float := float_mul a b.

(** Modelled from the spec: the message of the division-by-zero failure
    (section 4.1 quotes it as "cannot divide by zero"; the unit test
    [test_divide_by_zero] matches "Cannot divide by zero"). *)
Definition zero_message : string := "Cannot divide by zero".

(** Modelled from the spec: [divide(a, b) -> a / b], failing when
    [b == 0] with the domain error, which the unit test and the handler
    know as [ValueError] (section 4.1; [calculator.py] is missing). *)
Definition divide (a b : float) : outcome float :=
  if (b =? 0)%float
  then Raises (mk_exn ValueError zero_message)
  else float_truediv a b.

End calculator.

(** ** Binary64 values at the specification level *)

Module Binary64.

(** The specification-level reading of [math.isfinite]. *)
Definition SF_finite (x : spec_float) : bool :=
  match x with
  | S754_zero _ | S754_finite _ _ _ => true
  | S754_infinity _ | S754_nan => false
  end.

Definition SF_nan (x : spec_float) : bool :=
  match x with S754_nan => true | _ => false end.

Definition SF_zero (x : spec_float) : bool :=
  match x with S754_zero _ => true | _ => false end.

End Binary64.

(** ** The web application *)

Module app.

(** The four functions imported from the arithmetic module. *)
Inductive arith_fn : Type := Add | Subtract | Multiply | Divide.

(** One invocation of an arithmetic function, with its arguments. *)
Record call : Type := mk_call { callee : arith_fn; arg_a : float; arg_b : float }.

(** The state a running handler sees: its two local variables and the
    invocations of the arithmetic module made so far. *)
Record frame : Type := mk_frame {
  result : option float;
  error : option string;
  calls : list call
}.

Definition fresh : frame := mk_frame None None [].

(** The context dictionary [{"result": ..., "error": ...}]. *)
Record view_model : Type := mk_view {
  vm_result : option float;
  vm_error : option string
}.

(** What [templates.TemplateResponse] is given; rendering is the
    template engine's business. *)
Record response : Type := mk_response { template : string; context : view_model }.

(** Handler code runs in a state-and-exception monad. *)
Definition M (A : Type) : Type := frame -> outcome A * frame.

Definition ret {A} (a : A) : M A := fun s => (Returns a, s).

Definition bind {A B} (m : M A) (k : A -> M B) : M B :=
  fun s =>
    match m s with
    | (Returns a, s') => k a s'
    | (Raises e, s') => (Raises e, s')
    end.

Declare Scope handler_scope.
Delimit Scope handler_scope with handler.
Notation "x <- m ;; k" := (bind m (fun x => k))
  (at level 100, m at next level, right associativity) : handler_scope.
Notation "m ;; k" := (bind m (fun _ => k))
  (at level 100, right associativity) : handler_scope.
Local Open Scope handler_scope.

Definition set_result (r : option float) : M unit :=
  fun s => (Returns tt, mk_frame r (error s) (calls s)).

Definition set_error (e : option string) : M unit :=
  fun s => (Returns tt, mk_frame (result s) e (calls s)).

Definition get_result : M (option float) := fun s => (Returns (result s), s).
Definition get_error : M (option string) := fun s => (Returns (error s), s).

(** [try: body / except cls as e: handler e]. *)
Definition try_except (body : M unit) (cls : exc_class) (handler : exn -> M unit)
  : M unit :=
  fun s =>
    match body s with
    | (Returns u, s') => (Returns u, s')
    | (Raises e, s') =>
        if isinstance e cls then handler e s' else (Raises e, s')
    end.

Definition TemplateResponse (name : string) (ctx : view_model) : M response :=
  ret (mk_response name ctx).

(** [GET /] *)
Definition index : M response :=
  TemplateResponse "index.html" (mk_view None None).

Section Handler.

(** The names [add], [subtract], [multiply], [divide] that
    [from calculator import ...] binds. *)
Variables add subtract multiply divide : float -> float -> outcome float.

Definition imported (f : arith_fn) : float -> float -> outcome float :=
  match f with
  | Add => add
  | Subtract => subtract
  | Multiply => multiply
  | Divide => divide
  end.

(** Calling an imported function: the call is made, then it returns or
    raises. *)
Definition invoke (f : arith_fn) (a b : float) : M float :=
  fun s =>
    (imported f a b,
     mk_frame (result s) (error s) (calls s ++ [mk_call f a b])).

(** [POST /] *)
Definition calculate (a b : float) (operation : string) : M response :=
  set_result None ;;
  set_error None ;;
  try_except
    (if String.eqb operation "add" then
       v <- invoke Add a b ;; set_result (Some v)
     else if String.eqb operation "subtract" then
       v <- invoke Subtract a b ;; set_result (Some v)
     else if String.eqb operation "multiply" then
       v <- invoke Multiply a b ;; set_result (Some v)
     else if String.eqb operation "divide" then
       v <- invoke Divide a b ;; set_result (Some v)
     else ret tt)
    ValueError
    (fun e => set_error (Some (str e))) ;;
  r <- get_result ;;
  e <- get_error ;;
  TemplateResponse "index.html" (mk_view r e).

End Handler.

(** The response that renders the page with a given result and error. *)
Definition page (r : option float) (e : option string) : response :=
  mk_response "index.html" (mk_view r e).

(** The handler as deployed, with the arithmetic module linked in. *)
Definition post (a b : float) (operation : string) : M response :=
  calculate calculator.add calculator.subtract calculator.multiply
    calculator.divide a b operation.

(** The value of the form field that selects each function. *)
Definition selector (f : arith_fn) : string :=
  match f with
  | Add => "add"
  | Subtract => "subtract"
  | Multiply => "multiply"
  | Divide => "divide"
  end.

(** The selector values the form offers. *)
Definition known (operation : string) : bool :=
  String.eqb operation "add" || String.eqb operation "subtract" ||
  String.eqb operation "multiply" || String.eqb operation "divide".

(** A field of the view model is populated when it is not [None]. *)
Definition populated {A} (o : option A) : bool :=
  match o with Some _ => true | None => false end.

Definition both_populated (v : view_model) : bool :=
  populated (vm_result v) && populated (vm_error v).

Definition exactly_one_populated (v : view_model) : bool :=
  xorb (populated (vm_result v)) (populated (vm_error v)).

Definition both_empty (v : view_model) : bool :=
  negb (populated (vm_result v)) && negb (populated (vm_error v)).

End app.

Import app.

(** ** Running the handler *)

Section HandlerFacts.

Variables add subtract multiply divide : float -> float -> outcome float.

Local Abbreviation calculate' := (calculate add subtract multiply divide).
Local Abbreviation imported' := (imported add subtract multiply divide).

(** A known selector runs the function it names, once, and the three
    ways that call can end give the three ways the handler ends. *)
Lemma calculate_selector (f : arith_fn) (a b : float) (s : frame) :
  calculate' a b (selector f) s =
  let log := (calls s ++ [mk_call f a b])%list in
  match imported' f a b with
  | Returns v => (Returns (page (Some v) None), mk_frame (Some v) None log)
  | Raises e =>
      if isinstance e ValueError
      then (Returns (page None (Some (str e))), mk_frame None (Some (str e)) log)
      else (Raises e, mk_frame None None log)
  end.
Proof.
  destruct f; cbn -[isinstance];
    unfold calculate, bind, try_except, invoke; cbn -[isinstance].
  - destruct (add a b) as [v | e]; cbn -[isinstance]; [reflexivity|].
    destruct (isinstance e ValueError); reflexivity.
  - destruct (subtract a b) as [v | e]; cbn -[isinstance]; [reflexivity|].
    destruct (isinstance e ValueError); reflexivity.
  - destruct (multiply a b) as [v | e]; cbn -[isinstance]; [reflexivity|].
    destruct (isinstance e ValueError); reflexivity.
  - destruct (divide a b) as [v | e]; cbn -[isinstance]; [reflexivity|].
    destruct (isinstance e ValueError); reflexivity.
Qed.

(** Any other selector skips every branch of the [if]/[elif] chain. *)
Lemma calculate_other (a b : float) (operation : string) (s : frame) :
  known operation = false ->
  calculate' a b operation s =
  (Returns (page None None), mk_frame None None (calls s)).
Proof.
  unfold known. intros H.
  repeat (apply orb_false_elim in H; destruct H as [H ?]).
  unfold calculate, bind, try_except.
  cbn. rewrite H, H2, H1, H0. reflexivity.
Qed.

End HandlerFacts.

Lemma known_selector (f : arith_fn) : known (selector f) = true.
Proof. destruct f; reflexivity. Qed.

Lemma known_inv (operation : string) :
  known operation = true -> exists f, operation = selector f.
Proof.
  unfold known. intros H.
  repeat (apply orb_true_elim in H; destruct H as [H | H]);
    apply String.eqb_eq in H;
    [exists Add | exists Subtract | exists Multiply | exists Divide]; exact H.
Qed.

(** ** Binary64 facts behind Python's float operators *)

Module Binary64Facts.
Import Binary64.

Lemma SFcompare_refl (x : spec_float) :
  SF_nan x = false -> SFcompare x x = Some Eq.
Proof.
  destruct x as [[|] | [|] | | [|] m e]; cbn; try discriminate; try reflexivity;
    intros _; rewrite Z.compare_refl, Pos.compare_cont_refl; reflexivity.
Qed.

Lemma is_nan_spec (x : float) : is_nan x = SF_nan (Prim2SF x).
Proof.
  unfold is_nan. rewrite eqb_spec. unfold SFeqb.
  destruct (SF_nan (Prim2SF x)) eqn:E.
  - destruct (Prim2SF x); try discriminate. reflexivity.
  - rewrite SFcompare_refl by exact E. reflexivity.
Qed.

Lemma is_finite_spec (x : float) : is_finite x = SF_finite (Prim2SF x).
Proof.
  unfold is_finite, is_infinity.
  rewrite is_nan_spec, eqb_spec, abs_spec.
  change (Prim2SF infinity) with (S754_infinity false).
  destruct (Prim2SF x) as [[|] | [|] | | [|] m e]; reflexivity.
Qed.

Lemma is_zero_spec (x : float) : (x =? 0)%float = SF_zero (Prim2SF x).
Proof.
  rewrite eqb_spec. change (Prim2SF 0) with (S754_zero false).
  destruct (Prim2SF x) as [[|] | [|] | | [|] m e]; reflexivity.
Qed.

(** A float that is not NaN compares equal to itself. *)
Lemma eqb_refl (x : float) : is_nan x = false -> (x =? x)%float = true.
Proof. unfold is_nan. intros H. apply negb_false_iff in H. exact H. Qed.

(** *** Rounding never invents NaN *)

Lemma iter_pos_invariant {A} (P : A -> Prop) (f : A -> A) :
  (forall x, P x -> P (f x)) ->
  forall p x, P x -> P (iter_pos f p x).
Proof.
  intros Hf. induction p as [p IH | p IH |]; cbn; intros x Hx; auto.
Qed.

Lemma shr_1_nonneg (mrs : shr_record) :
  (0 <= shr_m mrs)%Z -> (0 <= shr_m (shr_1 mrs))%Z.
Proof.
  destruct mrs as [m r s]. cbn.
  destruct m as [| [p | p |] | p]; cbn; lia.
Qed.

Lemma shr_record_of_loc_m (m : Z) (l : location) :
  shr_m (shr_record_of_loc m l) = m.
Proof. destruct l as [| []]; reflexivity. Qed.

Lemma shr_fexp_nonneg (m e : Z) (l : location) :
  (0 <= m)%Z -> (0 <= shr_m (fst (shr_fexp prec emax m e l)))%Z.
Proof.
  intros Hm. unfold shr_fexp, shr.
  destruct (fexp prec emax (Zdigits2 m + e) - e)%Z as [| p | p]; cbn [fst].
  - rewrite shr_record_of_loc_m. exact Hm.
  - apply (iter_pos_invariant (fun r => 0 <= shr_m r)%Z).
    + exact shr_1_nonneg.
    + rewrite shr_record_of_loc_m. exact Hm.
  - rewrite shr_record_of_loc_m. exact Hm.
Qed.

Lemma round_nearest_even_nonneg (m : Z) (l : location) :
  (0 <= m)%Z -> (0 <= round_nearest_even m l)%Z.
Proof.
  intros Hm. destruct l as [| []]; cbn; try exact Hm; try lia.
  destruct (Z.even m); lia.
Qed.

Lemma binary_round_aux_not_nan (sx : bool) (m e : Z) (l : location) :
  (0 <= m)%Z -> SF_nan (binary_round_aux prec emax sx m e l) = false.
Proof.
  intros Hm. unfold binary_round_aux.
  pose proof (shr_fexp_nonneg m e l Hm) as H1.
  destruct (shr_fexp prec emax m e l) as [mrs' e'] eqn:E1. cbn [fst] in H1.
  pose proof (shr_fexp_nonneg
                (round_nearest_even (shr_m mrs') (loc_of_shr_record mrs'))
                e' loc_Exact
                (round_nearest_even_nonneg _ _ H1)) as H2.
  destruct (shr_fexp prec emax
              (round_nearest_even (shr_m mrs') (loc_of_shr_record mrs'))
              e' loc_Exact) as [mrs'' e''] eqn:E2.
  cbn [fst] in H2.
  destruct (shr_m mrs'') as [| p | p]; [reflexivity | | lia].
  destruct (e'' <=? emax - prec)%Z; reflexivity.
Qed.

Lemma binary_normalize_not_nan (m e : Z) (szero : bool) :
  SF_nan (binary_normalize prec emax m e szero) = false.
Proof.
  destruct m as [| p | p]; cbn [binary_normalize]; [reflexivity | |];
    unfold binary_round;
    destruct (shl_align p e (fexp prec emax (Z.pos (digits2_pos p) + e)))
      as [mz ez];
    apply binary_round_aux_not_nan; lia.
Qed.

(** *** The four operations on finite operands *)

(** Case analysis on two operands assumed finite: only the case of two
    non-zero finite numbers is left, where rounding takes place. *)
Ltac finite_operands x y :=
  destruct x as [[|] | [|] | | ?sx ?mx ?ex]; try discriminate;
  destruct y as [[|] | [|] | | ?sy ?my ?ey]; try discriminate;
  intros; try reflexivity.

Lemma SFadd_finite (x y : spec_float) :
  SF_finite x = true -> SF_finite y = true ->
  SF_nan (SFadd prec emax x y) = false.
Proof.
  finite_operands x y.
  apply binary_normalize_not_nan.
Qed.

Lemma SFsub_finite (x y : spec_float) :
  SF_finite x = true -> SF_finite y = true ->
  SF_nan (SFsub prec emax x y) = false.
Proof.
  finite_operands x y.
  apply binary_normalize_not_nan.
Qed.

Lemma SFmul_finite (x y : spec_float) :
  SF_finite x = true -> SF_finite y = true ->
  SF_nan (SFmul prec emax x y) = false.
Proof.
  finite_operands x y.
  apply binary_round_aux_not_nan. lia.
Qed.

Lemma SFdiv_core_binary_nonneg (m1 m2 : positive) (e1 e2 : Z) :
  (0 <= fst (fst (SFdiv_core_binary prec emax (Z.pos m1) e1 (Z.pos m2) e2)))%Z.
Proof.
  unfold SFdiv_core_binary.
  set (s := (e1 - e2 - _)%Z).
  set (m' := match s with Z.pos _ => Z.shiftl (Z.pos m1) s | Z0 => Z.pos m1
                        | Z.neg _ => 0%Z end).
  assert (Hm' : (0 <= m')%Z).
  { subst m'. destruct s; try lia. apply Z.shiftl_nonneg. lia. }
  pose proof (Z.div_eucl_eq m' (Z.pos m2) ltac:(lia)) as Heq.
  pose proof (Z.mod_pos_bound m' (Z.pos m2) ltac:(lia)) as Hr.
  unfold Z.modulo in Hr.
  destruct (Z.div_eucl m' (Z.pos m2)) as [q r]. cbn [fst].
  nia.
Qed.

Lemma SFdiv_finite (x y : spec_float) :
  SF_finite x = true -> SF_finite y = true -> SF_zero y = false ->
  SF_nan (SFdiv prec emax x y) = false.
Proof.
  finite_operands x y.
  cbn [SFdiv].
  pose proof (SFdiv_core_binary_nonneg mx my ex ey) as Hq.
  destruct (SFdiv_core_binary prec emax (Z.pos mx) ex (Z.pos my) ey)
    as [[mz ez] lz].
  apply binary_round_aux_not_nan. exact Hq.
Qed.

(** Addition does not depend on the order of its operands. *)
Lemma SFadd_comm (x y : spec_float) :
  SFadd prec emax x y = SFadd prec emax y x.
Proof.
  destruct x as [[|] | [|] | | sx mx ex];
    destruct y as [[|] | [|] | | sy my ey]; try reflexivity.
  cbn [SFadd]. rewrite (Z.min_comm ex ey), Z.add_comm. reflexivity.
Qed.

(** *** The same facts on primitive floats *)

Lemma add_finite (a b : float) :
  is_finite a = true -> is_finite b = true -> is_nan (a + b) = false.
Proof.
  rewrite !is_finite_spec, is_nan_spec, add_spec. apply SFadd_finite.
Qed.

Lemma sub_finite (a b : float) :
  is_finite a = true -> is_finite b = true -> is_nan (a - b) = false.
Proof.
  rewrite !is_finite_spec, is_nan_spec, sub_spec. apply SFsub_finite.
Qed.

Lemma mul_finite (a b : float) :
  is_finite a = true -> is_finite b = true -> is_nan (a * b) = false.
Proof.
  rewrite !is_finite_spec, is_nan_spec, mul_spec. apply SFmul_finite.
Qed.

Lemma div_finite (a b : float) :
  is_finite a = true -> is_finite b = true -> (b =? 0)%float = false ->
  is_nan (a / b) = false.
Proof.
  rewrite !is_finite_spec, is_nan_spec, div_spec, is_zero_spec.
  apply SFdiv_finite.
Qed.

Lemma add_comm (a b : float) : (a + b)%float = (b + a)%float.
Proof.
  apply Prim2SF_inj. rewrite !add_spec. apply SFadd_comm.
Qed.

End Binary64Facts.

(** ** The arithmetic module, executed *)

Section CalculatorFacts.

Import Binary64Facts.

Lemma divide_zero (a b : float) :
  float_eq b 0 = true ->
  calculator.divide a b = Raises (mk_exn ValueError calculator.zero_message).
Proof.
  unfold float_eq, calculator.divide. intros ->. reflexivity.
Qed.

Lemma divide_nonzero (a b : float) :
  float_eq b 0 = false -> calculator.divide a b = Returns (a / b)%float.
Proof.
  unfold float_eq, calculator.divide, float_truediv. intros ->. reflexivity.
Qed.

(** The linked-in functions raise nothing that the handler lets through. *)
Lemma calculator_raises_only_ValueError (f : arith_fn) (a b : float) :
  match
    imported calculator.add calculator.subtract calculator.multiply
      calculator.divide f a b
  with
  | Returns _ => True
  | Raises e => isinstance e ValueError = true
  end.
Proof.
  destruct f; cbn; try exact I.
  destruct (float_eq b 0) eqn:E.
  - rewrite divide_zero by exact E. reflexivity.
  - rewrite divide_nonzero by exact E. exact I.
Qed.

(** A float that is not NaN passes [assert x == x]. *)
Lemma assert_eq_returns (x : float) :
  is_nan x = false -> assert_eq (Returns x) x = true.
Proof. intros H. cbn. unfold float_eq. apply eqb_refl. exact H. Qed.

End CalculatorFacts.

(** The deployed handler always renders a page. *)
Lemma post_renders (a b : float) (operation : string) (s : frame) :
  exists v s',
    post a b operation s = (Returns (page (vm_result v) (vm_error v)), s') /\
    exactly_one_populated v = known operation /\
    both_empty v = negb (known operation).
Proof.
  unfold post. destruct (known operation) eqn:K.
  - destruct (known_inv _ K) as [f ->].
    rewrite calculate_selector.
    pose proof (calculator_raises_only_ValueError f a b) as H.
    destruct (imported _ _ _ _ f a b) as [v | e]; cbv zeta.
    + exists (mk_view (Some v) None). eexists. repeat split.
    + rewrite H. exists (mk_view None (Some (str e))). eexists. repeat split.
  - rewrite calculate_other by exact K.
    exists (mk_view None None). eexists. repeat split.
Qed.

(** ** End-to-end scenarios and the unit tests *)

Example scenario_add :
  fst (post 2 3 "add" fresh) = Returns (page (Some 5%float) None).
Proof. reflexivity. Qed.

Example scenario_subtract :
  fst (post 5 3 "subtract" fresh) = Returns (page (Some 2%float) None).
Proof. reflexivity. Qed.

Example scenario_multiply :
  fst (post 5 0 "multiply" fresh) = Returns (page (Some 0%float) None).
Proof. reflexivity. Qed.

Example scenario_divide_by_zero :
  fst (post 10 0 "divide" fresh) =
  Returns (page None (Some "Cannot divide by zero")).
Proof. reflexivity. Qed.

Example test_divide_basic : assert_eq (calculator.divide 10 2) 5 = true.
Proof. reflexivity. Qed.

Example test_subtract_negative_result :
  assert_eq (calculator.subtract 3 5) (-2) = true.
Proof. reflexivity. Qed.

Example index_page : fst (index fresh) = Returns (page None None).
Proof. reflexivity. Qed.

(** ** The handler's contract *)

(** C1. For a POST whose selector is one of the four valid values the
    handler invokes exactly the function the selector names, once, with the
    submitted operands.  When that call returns, [result] holds the returned
    number and [error] stays empty; when it fails with the domain error
    (a [ValueError]), [error] holds the failure's message and [result]
    stays empty; no other kind of failure yields a view model. *)
Theorem calculate_dispatch
  (add subtract multiply divide : float -> float -> outcome float)
  (f : arith_fn) (a b : float) (s : frame) :
  let run := calculate add subtract multiply divide a b (selector f) s in
  calls (snd run) = (calls s ++ [mk_call f a b])%list /\
  match imported add subtract multiply divide f a b with
  | Returns v => fst run = Returns (page (Some v) None)
  | Raises e =>
      if isinstance e ValueError
      then fst run = Returns (page None (Some (str e)))
      else fst run = Raises e
  end.
Proof.
  cbv zeta. rewrite calculate_selector.
  destruct (imported add subtract multiply divide f a b) as [v | e]; cbv zeta.
  - split; reflexivity.
  - destruct (isinstance e ValueError); split; reflexivity.
Qed.

(** C2. Dividing by a divisor that compares equal to zero fails, for every
    dividend (finite or not): no value is returned, the failure is the
    domain error ([ValueError]), and its message, lower-cased, contains
    "divide by zero"; it also matches the unit test's "Cannot divide by
    zero". *)
Theorem divide_by_zero_fails (a b : float) :
  float_eq b 0 = true ->
  exists e,
    calculator.divide a b = Raises e /\
    exn_class e = ValueError /\
    contains "divide by zero" (lower (str e)) = true /\
    contains "Cannot divide by zero" (str e) = true.
Proof.
  intros Hb. exists (mk_exn ValueError calculator.zero_message).
  split; [apply divide_zero; exact Hb | repeat split].
Qed.

Lemma divide_by_zero_fails_witness :
  exists e,
    calculator.divide 10 0 = Raises e /\
    exn_class e = ValueError /\
    contains "divide by zero" (lower (str e)) = true /\
    contains "Cannot divide by zero" (str e) = true.
Proof. apply (divide_by_zero_fails 10 0). reflexivity. Defined.

(** C3. No request yields a view model with both [result] and [error]
    populated: not the initial GET, not a POST through the handler whatever
    the four imported functions do (when one lets an exception through there
    is no view model at all), and not a POST through the deployed handler,
    which always renders. *)
Theorem result_and_error_exclusive :
  (forall s, exists r,
      fst (index s) = Returns r /\ both_populated (context r) = false) /\
  (forall add subtract multiply divide a b operation s,
      match fst (calculate add subtract multiply divide a b operation s) with
      | Returns r => both_populated (context r) = false
      | Raises _ => True
      end) /\
  (forall a b operation s, exists r,
      fst (post a b operation s) = Returns r /\
      both_populated (context r) = false).
Proof.
  split; [| split].
  - intros s. exists (page None None). split; reflexivity.
  - intros add subtract multiply divide a b operation s.
    destruct (known operation) eqn:K.
    + destruct (known_inv _ K) as [f ->]. rewrite calculate_selector.
      destruct (imported add subtract multiply divide f a b) as [v | e];
        cbv zeta; [reflexivity |].
      destruct (isinstance e ValueError); [reflexivity | exact I].
    + rewrite calculate_other by exact K. reflexivity.
  - intros a b operation s.
    destruct (post_renders a b operation s) as (v & s' & E & H1 & H2).
    exists (page (vm_result v) (vm_error v)). rewrite E. split; [reflexivity |].
    destruct v as [[r |] [e |]]; cbn in *; try reflexivity.
    destruct (known operation); discriminate.
Qed.

(** C4, as the spec words it, fails: a POST with a selector outside the
    four known strings renders a page on which neither field is populated. *)
Lemma post_unknown_selector_populates_nothing :
  exists r,
    fst (post 1 2 "power" fresh) = Returns r /\
    exactly_one_populated (context r) = false /\
    both_empty (context r) = true.
Proof. exists (page None None). repeat split. Qed.

(** C4, amended. A POST always renders, and exactly one of [result] and
    [error] is populated precisely when the selector is one of the four
    known strings; for any other selector both stay empty, as they are on
    the initial GET. *)
Theorem exactly_one_populated_iff_known :
  (forall a b operation s, exists r,
      fst (post a b operation s) = Returns r /\
      exactly_one_populated (context r) = known operation /\
      both_empty (context r) = negb (known operation)) /\
  (forall s, exists r,
      fst (index s) = Returns r /\ both_empty (context r) = true).
Proof.
  split.
  - intros a b operation s.
    destruct (post_renders a b operation s) as (v & s' & E & H1 & H2).
    exists (page (vm_result v) (vm_error v)). rewrite E.
    destruct v; repeat split; assumption.
  - intros s. exists (page None None). split; reflexivity.
Qed.

(** C5. A POST whose selector is none of the four known strings performs no
    operation: no arithmetic function is invoked, nothing is raised, and
    the page is rendered with [result] and [error] both empty. *)
Theorem unknown_selector_is_noop
  (add subtract multiply divide : float -> float -> outcome float)
  (a b : float) (operation : string) (s : frame) :
  known operation = false ->
  let run := calculate add subtract multiply divide a b operation s in
  fst run = Returns (page None None) /\
  calls (snd run) = calls s /\
  result (snd run) = None /\
  error (snd run) = None.
Proof.
  intros K. cbv zeta. rewrite calculate_other by exact K.
  repeat split.
Qed.

Lemma unknown_selector_is_noop_witness :
  let run := post 7 0 "modulo" fresh in
  fst run = Returns (page None None) /\
  calls (snd run) = [] /\
  result (snd run) = None /\
  error (snd run) = None.
Proof.
  apply (unknown_selector_is_noop calculator.add calculator.subtract
           calculator.multiply calculator.divide 7 0 "modulo" fresh).
  reflexivity.
Defined.

(** ** The arithmetic module's contract *)

(** C6. [add], [subtract] and [multiply] never fail, on any operands: each
    returns the binary64 sum, difference or product, which is the IEEE-754
    rounding of the exact one; and on finite operands the unit-test
    comparisons [add(a, b) == a + b], [subtract(a, b) == a - b] and
    [multiply(a, b) == a * b] hold. *)
Theorem add_subtract_multiply_exact (a b : float) :
  (calculator.add a b = Returns (a + b)%float /\
   calculator.subtract a b = Returns (a - b)%float /\
   calculator.multiply a b = Returns (a * b)%float) /\
  (Prim2SF (a + b) = SF64add (Prim2SF a) (Prim2SF b) /\
   Prim2SF (a - b) = SF64sub (Prim2SF a) (Prim2SF b) /\
   Prim2SF (a * b) = SF64mul (Prim2SF a) (Prim2SF b)) /\
  (isfinite a = true -> isfinite b = true ->
   assert_eq (calculator.add a b) (a + b) = true /\
   assert_eq (calculator.subtract a b) (a - b) = true /\
   assert_eq (calculator.multiply a b) (a * b) = true).
Proof.
  split; [repeat split | split].
  - split; [apply add_spec | split; [apply sub_spec | apply mul_spec]].
  - unfold isfinite. intros Ha Hb.
    unfold calculator.add, calculator.subtract, calculator.multiply,
      float_add, float_sub, float_mul.
    split; [| split]; apply assert_eq_returns.
    + apply Binary64Facts.add_finite; assumption.
    + apply Binary64Facts.sub_finite; assumption.
    + apply Binary64Facts.mul_finite; assumption.
Qed.

Lemma add_subtract_multiply_exact_witness :
  assert_eq (calculator.add 2 3) (2 + 3) = true /\
  assert_eq (calculator.subtract 2 3) (2 - 3) = true /\
  assert_eq (calculator.multiply 2 3) (2 * 3) = true.
Proof.
  apply (add_subtract_multiply_exact 2 3); reflexivity.
Defined.

(** C7. When the divisor does not compare equal to zero, [divide] does not
    fail: it returns the binary64 quotient, the IEEE-754 rounding of the
    exact one with nothing special-cased; and on finite operands the
    comparison [divide(a, b) == a / b] holds. *)
Theorem divide_nonzero_quotient (a b : float) :
  float_eq b 0 = false ->
  calculator.divide a b = Returns (a / b)%float /\
  Prim2SF (a / b) = SF64div (Prim2SF a) (Prim2SF b) /\
  (isfinite a = true -> isfinite b = true ->
   assert_eq (calculator.divide a b) (a / b) = true).
Proof.
  intros Hb. split; [apply divide_nonzero; exact Hb | split].
  - apply div_spec.
  - unfold isfinite. intros Ha Hb'. rewrite divide_nonzero by exact Hb.
    apply assert_eq_returns. apply Binary64Facts.div_finite; assumption.
Qed.

Lemma divide_nonzero_quotient_witness :
  calculator.divide 10 2 = Returns (10 / 2)%float /\
  Prim2SF (10 / 2) = SF64div (Prim2SF 10) (Prim2SF 2) /\
  assert_eq (calculator.divide 10 2) (10 / 2) = true.
Proof.
  destruct (divide_nonzero_quotient 10 2 eq_refl) as (H1 & H2 & H3).
  split; [exact H1 | split; [exact H2 | apply H3; reflexivity]].
Defined.

(** ** Which failures the handler converts *)

(** C8, as the spec words it, fails: the handler does not catch the
    division-by-zero failure alone.  A [ValueError] of another cause, here
    a "math domain error" raised by [add], and an instance of a subclass,
    here a [UnicodeError] raised by [subtract], are both turned into the
    view model's error field instead of propagating. *)
Lemma failure_other_than_division_by_zero_is_caught :
  let domain_add (a b : float) : outcome float :=
    Raises (mk_exn ValueError "math domain error") in
  let codec_subtract (a b : float) : outcome float :=
    Raises (mk_exn UnicodeError "codec can't decode") in
  fst (calculate domain_add codec_subtract calculator.multiply
         calculator.divide 1 2 "add" fresh)
    = Returns (page None (Some "math domain error")) /\
  fst (calculate domain_add codec_subtract calculator.multiply
         calculator.divide 1 2 "subtract" fresh)
    = Returns (page None (Some "codec can't decode")).
Proof. split; reflexivity. Qed.

(** C8, amended. What the handler catches is decided by the exception's
    class and nothing else: whichever of the four functions is invoked, an
    exception it raises leaves the handler as that same exception, with no
    view model and neither field set, exactly when it is not an instance of
    [ValueError] (the class the division-by-zero failure is raised as);
    every instance of [ValueError], of whatever cause, is converted into
    the error field. *)
Theorem other_failures_propagate
  (add subtract multiply divide : float -> float -> outcome float)
  (f : arith_fn) (a b : float) (e : exn) (s : frame) :
  imported add subtract multiply divide f a b = Raises e ->
  let run := calculate add subtract multiply divide a b (selector f) s in
  (isinstance e ValueError = false ->
   fst run = Raises e /\
   result (snd run) = None /\
   error (snd run) = None) /\
  (isinstance e ValueError = true ->
   fst run = Returns (page None (Some (str e)))) /\
  (fst run = Raises e <-> isinstance e ValueError = false).
Proof.
  intros Hf. cbv zeta. rewrite calculate_selector, Hf. cbv zeta.
  destruct (isinstance e ValueError); cbn [fst snd result error].
  - split; [discriminate | split; [reflexivity |]].
    split; discriminate.
  - split; [intros _; repeat split | split; [discriminate |]].
    split; reflexivity.
Qed.

Lemma other_failures_propagate_witness :
  let run :=
    calculate float_add float_sub float_mul float_truediv 10 0 "divide" fresh
  in
  fst run = Raises (mk_exn ZeroDivisionError "float division by zero") /\
  result (snd run) = None /\
  error (snd run) = None.
Proof.
  cbv zeta.
  destruct (other_failures_propagate float_add float_sub float_mul
              float_truediv Divide 10 0
              (mk_exn ZeroDivisionError "float division by zero") fresh
              eq_refl) as [H _].
  apply H. reflexivity.
Defined.

(** C9. [add] is commutative: swapping the operands gives the same float,
    and on finite operands [add(a, b) == add(b, a)] holds. *)
Theorem add_commutative (a b : float) :
  calculator.add a b = calculator.add b a /\
  (isfinite a = true -> isfinite b = true ->
   exists x y,
     calculator.add a b = Returns x /\
     calculator.add b a = Returns y /\
     float_eq x y = true).
Proof.
  unfold calculator.add, float_add, isfinite. split.
  - rewrite Binary64Facts.add_comm. reflexivity.
  - intros Ha Hb. exists (a + b)%float, (b + a)%float.
    split; [reflexivity | split; [reflexivity |]].
    rewrite (Binary64Facts.add_comm b a). unfold float_eq.
    apply Binary64Facts.eqb_refl. apply Binary64Facts.add_finite; assumption.
Qed.

Lemma add_commutative_witness :
  exists x y,
    calculator.add 0.5 3 = Returns x /\
    calculator.add 3 0.5 = Returns y /\
    float_eq x y = true.
Proof. apply (add_commutative 0.5 3); reflexivity. Defined.

(** C10. The conversion of a failure into a message is not specific to
    [divide]: the one [except] clause wraps the whole dispatch, so a
    [ValueError] (or an instance of a subclass) raised by whichever of the
    four functions is invoked becomes the view model's [error], set to
    [str(e)] verbatim, with [result] empty, and nothing propagates. *)
Theorem any_value_error_becomes_message
  (add subtract multiply divide : float -> float -> outcome float)
  (f : arith_fn) (a b : float) (e : exn) (s : frame) :
  imported add subtract multiply divide f a b = Raises e ->
  isinstance e ValueError = true ->
  let run := calculate add subtract multiply divide a b (selector f) s in
  fst run = Returns (page None (Some (str e))) /\
  calls (snd run) = (calls s ++ [mk_call f a b])%list.
Proof.
  intros Hf He. cbv zeta. rewrite calculate_selector, Hf. cbv zeta.
  rewrite He. split; reflexivity.
Qed.

Lemma any_value_error_becomes_message_witness :
  let strict_add (a b : float) : outcome float :=
    if is_nan a || is_nan b
    then Raises (mk_exn (UserDefined "OperandError" ValueError) "operand is NaN")
    else float_add a b in
  let run :=
    calculate strict_add float_sub float_mul float_truediv nan 1 "add" fresh
  in
  fst run = Returns (page None (Some "operand is NaN")) /\
  calls (snd run) = [mk_call Add nan 1].
Proof.
  cbv zeta.
  apply (any_value_error_becomes_message _ float_sub float_mul float_truediv
           Add nan 1 (mk_exn (UserDefined "OperandError" ValueError)
                        "operand is NaN") fresh); reflexivity.
Defined.

(** ** Further properties of the handler *)

(** X1. On the deployed handler the error field is populated exactly when
    the selector is "divide" and the divisor compares equal to zero, its
    text is then "Cannot divide by zero" (which, lower-cased, contains
    "zero" as the browser test expects); the result field is populated
    exactly for the other requests with a known selector. *)
Theorem error_only_when_dividing_by_zero
  (a b : float) (operation : string) (s : frame) :
  let by_zero := String.eqb operation "divide" && float_eq b 0 in
  exists r,
    fst (post a b operation s) = Returns r /\
    vm_error (context r) =
      (if by_zero then Some calculator.zero_message else None) /\
    populated (vm_result (context r)) = known operation && negb by_zero /\
    contains "zero" (lower calculator.zero_message) = true.
Proof.
  cbv zeta. unfold post. destruct (known operation) eqn:K.
  - destruct (known_inv _ K) as [f ->]. rewrite calculate_selector.
    destruct f; cbn [imported selector]; cbv zeta;
      try (eexists; repeat split; reflexivity).
    destruct (float_eq b 0) eqn:E.
    + rewrite divide_zero by exact E. cbn. eexists. repeat split.
    + rewrite divide_nonzero by exact E. cbn. eexists. repeat split.
  - rewrite calculate_other by exact K.
    assert (D : String.eqb operation "divide" = false).
    { unfold known in K. apply orb_false_elim in K. apply K. }
    rewrite D. eexists. repeat split.
Qed.

(** X3. An exception leaves the handler only if the selector names one of
    the four functions, that function raised this very exception, and it
    is not a [ValueError]; in particular the handler never raises a
    [ValueError], whatever the imported functions do. *)
Theorem escaping_exception_comes_from_the_call
  (add subtract multiply divide : float -> float -> outcome float)
  (a b : float) (operation : string) (s : frame) (e : exn) :
  fst (calculate add subtract multiply divide a b operation s) = Raises e ->
  isinstance e ValueError = false /\
  exists f,
    operation = selector f /\
    imported add subtract multiply divide f a b = Raises e.
Proof.
  destruct (known operation) eqn:K.
  - destruct (known_inv _ K) as [f ->]. rewrite calculate_selector.
    destruct (imported add subtract multiply divide f a b) as [v | e'] eqn:Ef;
      cbv zeta; cbn [fst]; [discriminate |].
    destruct (isinstance e' ValueError) eqn:Ei; cbn [fst]; [discriminate |].
    intros [= <-]. split; [exact Ei |]. exists f. split; [reflexivity | exact Ef].
  - rewrite calculate_other by exact K. discriminate.
Qed.

Lemma escaping_exception_comes_from_the_call_witness :
  isinstance (mk_exn ZeroDivisionError "float division by zero") ValueError
    = false /\
  exists f,
    "divide" = selector f /\
    imported float_add float_sub float_mul float_truediv f 10 0 =
      Raises (mk_exn ZeroDivisionError "float division by zero").
Proof.
  apply (escaping_exception_comes_from_the_call float_add float_sub float_mul
           float_truediv 10 0 "divide" fresh).
  reflexivity.
Defined.

(** X4. Dispatch is by exact string equality: the handler invokes a given
    arithmetic function (once, with the submitted operands, and nothing
    else) if and only if the selector is exactly that function's form
    value; a selector that differs in case or spacing invokes nothing. *)
Theorem function_invoked_iff_selected
  (add subtract multiply divide : float -> float -> outcome float)
  (a b : float) (operation : string) (s : frame) (f : arith_fn) :
  calls (snd (calculate add subtract multiply divide a b operation s)) =
    (calls s ++ [mk_call f a b])%list
  <-> operation = selector f.
Proof.
  split.
  - intros H. destruct (known operation) eqn:K.
    + destruct (known_inv _ K) as [g ->]. rewrite calculate_selector in H.
      assert (Hg : (calls s ++ [mk_call g a b])%list =
                   (calls s ++ [mk_call f a b])%list).
      { destruct (imported add subtract multiply divide g a b) as [v | e];
          cbv zeta in H; [exact H |].
        destruct (isinstance e ValueError); exact H. }
      apply app_inv_head in Hg. injection Hg as ->. reflexivity.
    + rewrite calculate_other in H by exact K. cbn [snd calls] in H.
      apply (f_equal (@List.length call)) in H.
      rewrite length_app in H. cbn in H. lia.
  - intros ->. rewrite calculate_selector.
    destruct (imported add subtract multiply divide f a b) as [v | e];
      cbv zeta; [reflexivity |].
    destruct (isinstance e ValueError); reflexivity.
Qed.

(** X5. For finite operands the deployed handler never shows NaN: whatever
    the selector, the page is rendered and its result, when there is one,
    is a number (possibly an infinity, on overflow). *)
Theorem finite_operands_never_render_nan
  (a b : float) (operation : string) (s : frame) :
  isfinite a = true -> isfinite b = true ->
  exists r,
    fst (post a b operation s) = Returns r /\
    match vm_result (context r) with
    | Some x => is_nan x = false
    | None => True
    end.
Proof.
  unfold isfinite, post. intros Ha Hb. destruct (known operation) eqn:K.
  - destruct (known_inv _ K) as [f ->]. rewrite calculate_selector.
    destruct f; cbn [imported]; cbv zeta.
    + eexists. split; [reflexivity |]. cbn.
      apply Binary64Facts.add_finite; assumption.
    + eexists. split; [reflexivity |]. cbn.
      apply Binary64Facts.sub_finite; assumption.
    + eexists. split; [reflexivity |]. cbn.
      apply Binary64Facts.mul_finite; assumption.
    + destruct (float_eq b 0) eqn:E.
      * rewrite divide_zero by exact E. cbn. eexists. split; [reflexivity |].
        exact I.
      * rewrite divide_nonzero by exact E. eexists. split; [reflexivity |].
        cbn. apply Binary64Facts.div_finite; assumption.
  - rewrite calculate_other by exact K. eexists. split; [reflexivity |].
    exact I.
Qed.

Lemma finite_operands_never_render_nan_witness :
  exists r,
    fst (post 1 3 "divide" fresh) = Returns r /\
    match vm_result (context r) with
    | Some x => is_nan x = false
    | None => True
    end.
Proof.
  apply (finite_operands_never_render_nan 1 3 "divide" fresh); reflexivity.
Defined.

(** X6. Multiplying a finite number by zero, on either side, gives a
    value that compares equal to zero ([multiply(a, 0) == 0], the unit
    test [test_by_zero] for every finite [a]). *)
Theorem multiply_by_zero (a : float) :
  isfinite a = true ->
  assert_eq (calculator.multiply a 0) 0 = true /\
  assert_eq (calculator.multiply 0 a) 0 = true.
Proof.
  unfold isfinite. rewrite Binary64Facts.is_finite_spec. intros Ha.
  unfold calculator.multiply, float_mul, assert_eq, float_eq.
  rewrite !eqb_spec, !mul_spec.
  change (Prim2SF 0) with (S754_zero false).
  destruct (Prim2SF a) as [[|] | [|] | | [|] m e]; try discriminate;
    split; reflexivity.
Qed.

Lemma multiply_by_zero_witness :
  assert_eq (calculator.multiply 5 0) 0 = true /\
  assert_eq (calculator.multiply 0 5) 0 = true.
Proof. apply (multiply_by_zero 5). reflexivity. Defined.
